(** * dynamic_preferences.models: preference records, their manager and the
    auto-provisioning hook

    A shallow embedding of [dynamic_preferences/models.py].  Python objects
    that the module mutates in place ([self] inside the model methods, the
    dict [d] inside [to_dict]) are threaded explicitly; exceptions are the
    [Err] results of a small error monad.  The collaborators the module only
    consumes (the registries module, Django's model base class and query
    sets) appear as interfaces: records of functions, or variables of the
    sections below. *)

From stdpp Require Import base option list strings gmap fin_maps pretty.
From Stdlib Require Import ZArith.

Local Open Scope string_scope.
Local Open Scope list_scope.

(** ** Python values and exceptions *)

Module Py.

(** The values a preference can hold, and the values passed as keyword
    arguments. *)
Inductive pyval : Type :=
| PyNone
| PyBool (b : bool)
| PyInt (z : Z)
| PyStr (s : string).

#[global] Instance pyval_eq_dec : EqDecision pyval.
Proof. solve_decision. Defined.

(** [v is None] *)
Definition is_None (v : pyval) : bool :=
  match v with PyNone => true | _ => false end.

(** The exception classes that cross this module. *)
Inductive exn : Type :=
| KeyError
| LookupError
| AttributeError
| TypeError
| SerializationError
| DeserializationError.

#[global] Instance exn_eq_dec : EqDecision exn.
Proof. solve_decision. Defined.

(** What an [except KeyError:] clause catches. *)
Definition except_KeyError (e : exn) : bool :=
  match e with KeyError => true | _ => false end.

(** A call either returns or raises. *)
Inductive result (A : Type) : Type :=
| Ok (a : A)
| Err (e : exn).
Arguments Ok {A} a.
Arguments Err {A} e.

Definition is_Ok {A} (r : result A) : bool :=
  match r with Ok _ => true | Err _ => false end.

End Py.
Export Py.

(** ** The fields of a preference model

    [section], [name] and [raw_value] of [BasePreferenceModel], the primary
    key Django adds, and the [instance] foreign key of the per-instance
    models (absent on the global one). *)
Record Fields : Type := {
  pk : option Z;
  section : option string;
  name : string;
  raw_value : option string;
  instance : option Z
}.

(** ** The registries module, as this module consumes it

    [dynamic_preferences.registries] is imported, not defined, by
    [models.py].  A preference definition exposes [default] and
    [serializer]; a registry exposes [get] and
    [create_default_preferences]. *)

Module Registries.

Record Serializer : Type := {
  serialize : pyval -> result string;
  deserialize : option string -> result pyval
}.

Record Preference : Type := {
  default : pyval;
  serializer : Serializer
}.

Record Registry : Type := {
  (** [registry.get(section=..., name=...)] *)
  get : option string -> string -> result Preference;
  (** [registry.create_default_preferences(instance)], acting on the
      stored rows *)
  create_default_preferences :
    Z -> list Fields -> result unit * list Fields
}.

End Registries.
Export Registries.

(** ** Model classes and instances *)

(** A preference model class; [registry] is its class attribute. *)
Record PreferenceClass : Type := {
  class_name : string;
  registry : option Registry
}.

(** An instance: its class, its field values and the slot in which
    [cached_property] keeps the result of [preference]. *)
Record Model : Type := {
  class_of : PreferenceClass;
  fields :> Fields;
  cached_preference : option Preference
}.

Definition set_raw_value (self : Model) (s : option string) : Model :=
  {| class_of := class_of self;
     fields := {| pk := pk self; section := section self; name := name self;
                  raw_value := s; instance := instance self |};
     cached_preference := cached_preference self |}.

Definition set_cached_preference (self : Model) (p : Preference) : Model :=
  {| class_of := class_of self;
     fields := fields self;
     cached_preference := Some p |}.

(** *** Methods: computations over [self] that may raise *)

Definition method (A : Type) : Type := Model -> result A * Model.

Definition bind {A B} (m : method A) (k : A -> method B) : method B :=
  fun self =>
    match m self with
    | (Ok a, self') => k a self'
    | (Err e, self') => (Err e, self')
    end.

Definition lift {A} (r : result A) : method A := fun self => (r, self).

Notation "x <- m ;; k" := (bind m (fun x => k))
  (at level 100, m at next level, right associativity).

(** The outcome of a method seen from a caller that only keeps the object
    when no exception is raised. *)
Definition returned {A} (r : result A * Model) : result Model :=
  match r with
  | (Ok _, self') => Ok self'
  | (Err e, _) => Err e
  end.

Section Records.

(** [models.Model.__init__] of the class, given the positional and the
    keyword arguments: the field values the base constructor leaves on the
    new object. *)
Variable super_init :
  PreferenceClass -> list pyval -> gmap string pyval -> result Fields.

(** [preference], a [cached_property]: the first successful lookup is
    stored on the instance and reused. *)
Definition preference : method Preference := fun self =>
  match cached_preference self with
  | Some p => (Ok p, self)
  | None =>
      match registry (class_of self) with
      | None => (Err AttributeError, self)
      | Some reg =>
          match get reg (section self) (name self) with
          | Ok p => (Ok p, set_cached_preference self p)
          | Err e => (Err e, self)
          end
      end
  end.

(** [set_value]: [self.raw_value = self.preference.serializer.serialize(value)] *)
Definition set_value (value : pyval) : method unit :=
  p <- preference ;;
  s <- lift (serialize (serializer p) value) ;;
  fun self => (Ok tt, set_raw_value self (Some s)).

(** [get_value]: [self.preference.serializer.deserialize(self.raw_value)] *)
Definition get_value : method pyval :=
  p <- preference ;;
  fun self => (deserialize (serializer p) (raw_value self), self).

(** [__init__] *)
Definition __init__ (cls : PreferenceClass)
    (args : list pyval) (kwargs : gmap string pyval) : result Model :=
  let v := match kwargs !! "value" with Some x => x | None => PyNone end in
  let kwargs := delete "value" kwargs in
  match super_init cls args kwargs with
  | Err e => Err e
  | Ok f =>
      let self := {| class_of := cls; fields := f;
                     cached_preference := None |} in
      let new := bool_decide (pk self = None) in
      if new then
        if negb (is_None v) then
          returned (set_value v self)
        else
          returned ((p <- preference ;; set_value (default p)) self)
      else Ok self
  end.

End Records.

(** The object on which [__init__] runs its own code, right after the
    base constructor returned. *)
Definition constructed (cls : PreferenceClass) (f : Fields) : Model :=
  {| class_of := cls; fields := f; cached_preference := None |}.

(** The same object once [value] was assigned: the definition is cached
    and [raw_value] holds the encoding. *)
Definition initialised (cls : PreferenceClass) (f : Fields)
    (d : Preference) (s : string) : Model :=
  set_raw_value (set_cached_preference (constructed cls f) d) (Some s).

(** *** The classes of the module *)

Section Classes.

(** The three registries imported from the registries module. *)
Variables user_preferences_registry site_preferences_registry
          global_preferences_registry : Registry.

Definition BasePreferenceModel : PreferenceClass :=
  {| class_name := "BasePreferenceModel"; registry := None |}.

Definition GlobalPreferenceModel : PreferenceClass :=
  {| class_name := "GlobalPreferenceModel";
     registry := Some global_preferences_registry |}.

Definition PerInstancePreferenceModel : PreferenceClass :=
  {| class_name := "PerInstancePreferenceModel";
     registry := registry BasePreferenceModel |}.

Definition UserPreferenceModel : PreferenceClass :=
  {| class_name := "UserPreferenceModel";
     registry := Some user_preferences_registry |}.

Definition SitePreferenceModel : PreferenceClass :=
  {| class_name := "SitePreferenceModel";
     registry := Some site_preferences_registry |}.

End Classes.

(** ** The manager *)

(** The dict built by [to_dict]: section, then name, then value. *)
Abbreviation Dict := (gmap (option string) (gmap string pyval)).

Record PreferenceModelManager : Type := {
  (** the instances [self.get_queryset().all()] yields, in scan order *)
  get_queryset : list Model
}.

Section Manager.

(** [QuerySet.filter] with the keyword arguments of the call. *)
Variable qs_filter : gmap string pyval -> list Model -> result (list Model).

(** [d[section][name] = v] once [v] is known: the subscription
    [d[section]] raises [KeyError] when the section has no dict yet;
    the inner dict is updated in place. *)
Definition setitem2 (d : Dict) (sec : option string) (nm : string)
    (v : pyval) : result Dict :=
  match d !! sec with
  | Some inner => Ok (<[sec := <[nm := v]> inner]> d)
  | None => Err KeyError
  end.

(** The statement [d[p.section][p.name] = p.value]: the right-hand side
    is evaluated first. *)
Definition assign_value (d : Dict) (p : Model) : result Dict * Model :=
  match get_value p with
  | (Ok v, p') => (setitem2 d (section p') (name p') v, p')
  | (Err e, p') => (Err e, p')
  end.

(** The body of the [for] loop, with its [try] / [except KeyError]. *)
Definition to_dict_body (d : Dict) (p : Model) : result Dict :=
  match assign_value d p with
  | (Ok d', _) => Ok d'
  | (Err e, p') =>
      if except_KeyError e then
        let d1 := <[section p' := ∅]> d in
        fst (assign_value d1 p')
      else Err e
  end.

(** [for p in preferences: ...] *)
Fixpoint to_dict_loop (d : Dict) (preferences : list Model) : result Dict :=
  match preferences with
  | [] => Ok d
  | p :: rest =>
      match to_dict_body d p with
      | Ok d' => to_dict_loop d' rest
      | Err e => Err e
      end
  end.

(** The records the loop of [to_dict] scans. *)
Definition scanned (self : PreferenceModelManager)
    (kwargs : gmap string pyval) : result (list Model) :=
  let preferences := get_queryset self in
  if bool_decide (kwargs = ∅) then Ok preferences
  else qs_filter kwargs preferences.

(** [to_dict] *)
Definition to_dict (self : PreferenceModelManager)
    (kwargs : gmap string pyval) : result Dict :=
  match scanned self kwargs with
  | Ok preferences => to_dict_loop ∅ preferences
  | Err e => Err e
  end.

End Manager.

(** *** Reading the dict that [to_dict] builds *)

(** [d[sec][nm]], when both keys are present. *)
Definition entry (d : Dict) (sec : option string) (nm : string)
    : option pyval :=
  match d !! sec with
  | Some inner => inner !! nm
  | None => None
  end.

(** [d] after [v] was stored under [sec] and [nm], the section's dict being
    created when it was missing. *)
Definition with_entry (d : Dict) (sec : option string) (nm : string)
    (v : pyval) : Dict :=
  <[sec := <[nm := v]> (match d !! sec with
                        | Some inner => inner
                        | None => ∅
                        end)]> d.

(** What a record adds to the dict when its value can be read. *)
Definition scan (d : Dict) (p : Model) : Dict :=
  match fst (get_value p) with
  | Ok v => with_entry d (section p) (name p) v
  | Err _ => d
  end.

Definition decodable (p : Model) : bool := is_Ok (fst (get_value p)).

Definition same_coordinates (p q : Model) : Prop :=
  section p = section q /\ name p = name q.

(** ** The post-save hook *)

(** A recorded call of [registry.create_default_preferences(instance)]. *)
Inductive Call : Type :=
| Call_create_default_preferences (reg : Registry) (instance : Z).

(** What the hook can touch: the stored rows, and the calls made so far. *)
Record World : Type := {
  rows : list Fields;
  calls : list Call
}.

Section Hook.

(** The index from an owner model class to its preference class. *)
Variable per_instance_preferences : gmap string PreferenceClass.

Definition call_create_default_preferences (reg : Registry) (instance : Z)
    (w : World) : result unit * World :=
  let '(r, rows') := create_default_preferences reg instance (rows w) in
  (r, {| rows := rows';
         calls :=
           calls w ++ [Call_create_default_preferences reg instance] |}).

(** [create_default_per_instance_preferences(sender, created, instance)] *)
Definition create_default_per_instance_preferences
    (sender : string) (created : bool) (instance : Z)
    (w : World) : result unit * World :=
  let preference_class := per_instance_preferences !! sender in
  match created, preference_class with
  | true, Some cls =>
      match registry cls with
      | Some reg => call_create_default_preferences reg instance w
      | None => (Err AttributeError, w)
      end
  | _, _ => (Ok tt, w)
  end.

End Hook.

(** ** A concrete configuration

    Serializers, a registry, a base constructor and a query filter on which
    the definitions above can be run. *)

Module Sample.

Definition boolean_serializer : Serializer :=
  {| serialize v :=
       match v with
       | PyBool true => Ok "True"
       | PyBool false => Ok "False"
       | _ => Err SerializationError
       end;
     deserialize raw :=
       match raw with
       | Some "True" => Ok (PyBool true)
       | Some "False" => Ok (PyBool false)
       | _ => Err DeserializationError
       end |}.

(** A boolean preference that may also be unset. *)
Definition nullable_boolean_serializer : Serializer :=
  {| serialize v :=
       match v with
       | PyNone => Ok "None"
       | PyBool true => Ok "True"
       | PyBool false => Ok "False"
       | _ => Err SerializationError
       end;
     deserialize raw :=
       match raw with
       | Some "None" => Ok PyNone
       | Some "True" => Ok (PyBool true)
       | Some "False" => Ok (PyBool false)
       | _ => Err DeserializationError
       end |}.

Definition string_serializer : Serializer :=
  {| serialize v :=
       match v with
       | PyStr s => Ok s
       | _ => Err SerializationError
       end;
     deserialize raw :=
       match raw with
       | Some s => Ok (PyStr s)
       | None => Err DeserializationError
       end |}.

Definition definitions : list (option string * string * Preference) :=
  [ (Some "ui", "theme",
     {| default := PyStr "light"; serializer := string_serializer |});
    (Some "ui", "compact",
     {| default := PyBool false; serializer := boolean_serializer |});
    (None, "notify",
     {| default := PyBool true;
        serializer := nullable_boolean_serializer |}) ].

Fixpoint find_definition (defs : list (option string * string * Preference))
    (sec : option string) (nm : string) : result Preference :=
  match defs with
  | [] => Err KeyError
  | (s, n, p) :: rest =>
      if bool_decide (s = sec) && bool_decide (n = nm) then Ok p
      else find_definition rest sec nm
  end.

Definition default_row (owner : Z)
    (def : option string * string * Preference) : Fields :=
  let '(s, n, p) := def in
  {| pk := None; section := s; name := n;
     raw_value :=
       match serialize (serializer p) (default p) with
       | Ok raw => Some raw
       | Err _ => None
       end;
     instance := Some owner |}.

Definition sample_registry : Registry :=
  {| get := find_definition definitions;
     create_default_preferences owner stored :=
       (Ok tt, stored ++ map (default_row owner) definitions) |}.

Definition SamplePreferenceModel : PreferenceClass :=
  UserPreferenceModel sample_registry.

Definition text_field (v : option pyval) : result (option string) :=
  match v with
  | None | Some PyNone => Ok None
  | Some (PyStr s) => Ok (Some s)
  | Some _ => Err TypeError
  end.

Definition int_field (v : option pyval) : result (option Z) :=
  match v with
  | None | Some PyNone => Ok None
  | Some (PyInt z) => Ok (Some z)
  | Some _ => Err TypeError
  end.

(** A base constructor that reads the fields from keyword arguments. *)
Definition keyword_init (cls : PreferenceClass) (args : list pyval)
    (kwargs : gmap string pyval) : result Fields :=
  match int_field (kwargs !! "id"), text_field (kwargs !! "section"),
        text_field (kwargs !! "name"), text_field (kwargs !! "raw_value"),
        int_field (kwargs !! "instance_id") with
  | Ok i, Ok s, Ok n, Ok raw, Ok o =>
      Ok {| pk := i; section := s;
            name := match n with Some x => x | None => "" end;
            raw_value := raw; instance := o |}
  | _, _, _, _, _ => Err TypeError
  end.

(** A filter on exact field values. *)
Definition matches (kwargs : gmap string pyval) (p : Model) : bool :=
  match kwargs !! "section" with
  | Some (PyStr s) => bool_decide (section p = Some s)
  | Some PyNone => bool_decide (section p = None)
  | Some _ => false
  | None => true
  end &&
  match kwargs !! "name" with
  | Some (PyStr n) => bool_decide (name p = n)
  | Some _ => false
  | None => true
  end &&
  match kwargs !! "instance" with
  | Some (PyInt o) => bool_decide (instance p = Some o)
  | Some _ => false
  | None => true
  end.

Definition exact_filter (kwargs : gmap string pyval)
    (qs : list Model) : result (list Model) :=
  Ok (List.filter (matches kwargs) qs).

(** A stored record of [SamplePreferenceModel], as a query yields it. *)
Definition stored (i : Z) (owner : Z) (sec : option string) (nm : string)
    (raw : string) : Model :=
  {| class_of := SamplePreferenceModel;
     fields := {| pk := Some i; section := sec; name := nm;
                  raw_value := Some raw; instance := Some owner |};
     cached_preference := None |}.

End Sample.

(** ** Field assignment and the owner aliases *)

(** The instance after its fields were assigned new values: the class and
    the cached definition stay. *)
Definition set_fields (self : Model) (f : Fields) : Model :=
  {| class_of := class_of self;
     fields := f;
     cached_preference := cached_preference self |}.






(** ** [__repr__] and [__str__] *)

(** What [str.format] prints for a value. *)
Definition format_value (v : pyval) : string :=
  match v with
  | PyNone => "None"
  | PyBool true => "True"
  | PyBool false => "False"
  | PyInt z => pretty z
  | PyStr s => s
  end.

Definition format_section (sec : option string) : string :=
  match sec with
  | Some s => s
  | None => "None"
  end.

(** ['{0} - {1}/{2}: {3}'.format(self.__class__.__name__, self.section,
    self.name, self.value)] *)
Definition __repr__ : method string :=
  v <- get_value ;;
  fun self =>
    (Ok (class_name (class_of self) +:+ " - " +:+
         format_section (section self) +:+ "/" +:+ name self +:+ ": " +:+
         format_value v),
     self).

Definition __str__ : method string := __repr__.

(** ** Records that do not collide *)

Definition coordinates (p : Model) : option string * string :=
  (section p, name p).

(** No two of the records share section and name. *)
Definition distinct_coordinates (records : list Model) : Prop :=
  NoDup (coordinates <$> records).

(** No two of the records share owner, section and name. *)
Definition distinct_per_owner (records : list Model) : Prop :=
  NoDup ((fun p : Model => (instance p, coordinates p)) <$> records).

(** * Properties *)

(** ** The [value] accessor *)

Section AccessorFacts.

Implicit Types (self : Model) (p : Preference) (e : exn) (v : pyval).

Lemma preference_keeps_fields self r self' :
  preference self = (r, self') ->
  fields self' = fields self /\ class_of self' = class_of self.
Proof.
  unfold preference. intros H.
  destruct (cached_preference self); [by inversion H|].
  destruct (registry (class_of self)); [|by inversion H].
  destruct (get _ _ _); by inversion H.
Qed.

Lemma preference_raises self e self' :
  preference self = (Err e, self') -> self' = self.
Proof.
  unfold preference. intros H.
  destruct (cached_preference self); [by inversion H|].
  destruct (registry (class_of self)); [|by inversion H].
  destruct (get _ _ _); by inversion H.
Qed.

Lemma preference_memoized self p self' :
  preference self = (Ok p, self') -> preference self' = (Ok p, self').
Proof.
  unfold preference. intros H.
  destruct (cached_preference self) eqn:Hc.
  - inversion H; subst. by rewrite Hc.
  - destruct (registry (class_of self)); [|by inversion H].
    destruct (get _ _ _); by inversion H.
Qed.

Lemma preference_uncached self reg p :
  cached_preference self = None ->
  registry (class_of self) = Some reg ->
  get reg (section self) (name self) = Ok p ->
  preference self = (Ok p, set_cached_preference self p).
Proof. intros Hc Hr Hg. unfold preference. by rewrite Hc, Hr, Hg. Qed.

Lemma set_value_accepted self p self' v s :
  preference self = (Ok p, self') ->
  serialize (serializer p) v = Ok s ->
  set_value v self = (Ok tt, set_raw_value self' (Some s)).
Proof.
  intros Hp Hs. unfold set_value, bind, lift. by rewrite Hp, Hs.
Qed.

Lemma set_value_rejected self p self' v e :
  preference self = (Ok p, self') ->
  serialize (serializer p) v = Err e ->
  set_value v self = (Err e, self').
Proof.
  intros Hp Hs. unfold set_value, bind, lift. by rewrite Hp, Hs.
Qed.

Lemma get_value_found self p self' :
  preference self = (Ok p, self') ->
  get_value self = (deserialize (serializer p) (raw_value self), self').
Proof.
  intros Hp. unfold get_value, bind. rewrite Hp.
  by destruct (preference_keeps_fields _ _ _ Hp) as [-> _].
Qed.

Lemma get_value_not_found self e self' :
  preference self = (Err e, self') -> get_value self = (Err e, self).
Proof.
  intros Hp. unfold get_value, bind. rewrite Hp.
  by rewrite (preference_raises _ _ _ Hp).
Qed.

Lemma get_value_keeps_fields self r self' :
  get_value self = (r, self') -> fields self' = fields self.
Proof.
  destruct (preference self) as [[p|e] s1] eqn:Hp.
  - rewrite (get_value_found _ _ _ Hp). intros [= _ <-].
    by destruct (preference_keeps_fields _ _ _ Hp).
  - rewrite (get_value_not_found _ _ _ Hp). by intros [= _ <-].
Qed.

(** Reading twice gives the same outcome: the second read finds the
    definition in the cache, or fails in the registry as the first. *)
Lemma get_value_again self r self' :
  get_value self = (r, self') -> get_value self' = (r, self').
Proof.
  destruct (preference self) as [[p|e] s1] eqn:Hp.
  - rewrite (get_value_found _ _ _ Hp). intros [= <- <-].
    rewrite (get_value_found _ _ _ (preference_memoized _ _ _ Hp)).
    by destruct (preference_keeps_fields _ _ _ Hp) as [-> _].
  - rewrite (get_value_not_found _ _ _ Hp). intros [= <- <-].
    by rewrite (get_value_not_found _ _ _ Hp).
Qed.

(** Reading right after a successful write decodes what was written. *)
Lemma get_after_set self p self' s :
  preference self = (Ok p, self') ->
  get_value (set_raw_value self' (Some s))
  = (deserialize (serializer p) (Some s), set_raw_value self' (Some s)).
Proof.
  intros Hp. pose proof (preference_memoized _ _ _ Hp) as Hm.
  assert (preference (set_raw_value self' (Some s))
          = (Ok p, set_raw_value self' (Some s))) as Hq.
  { revert Hm. unfold preference. cbn.
    destruct (cached_preference self') eqn:Hc; [by intros [= ->]|].
    destruct (registry (class_of self')); [|by intros [=]].
    destruct (get _ _ _) eqn:Hg; [|by intros [=]].
    intros H. apply (f_equal (fun x => cached_preference (snd x))) in H.
    cbn in H. congruence. }
  by rewrite (get_value_found _ _ _ Hq).
Qed.

End AccessorFacts.

(** ** The constructor *)

Section ConstructorFacts.

Variable super_init :
  PreferenceClass -> list pyval -> gmap string pyval -> result Fields.

Implicit Types (cls : PreferenceClass) (f : Fields) (d : Preference).

Lemma constructed_preference cls f reg d :
  registry cls = Some reg ->
  get reg (section f) (name f) = Ok d ->
  preference (constructed cls f)
  = (Ok d, set_cached_preference (constructed cls f) d).
Proof. intros Hr Hg. by apply preference_uncached with reg. Qed.

Lemma initialised_value cls f reg d s :
  registry cls = Some reg ->
  get reg (section f) (name f) = Ok d ->
  fst (get_value (initialised cls f d s))
  = deserialize (serializer d) (Some s).
Proof.
  intros Hr Hg. unfold initialised.
  by rewrite (get_after_set _ _ _ s (constructed_preference _ _ _ _ Hr Hg)).
Qed.

(** A fresh object built with a value other than [None]. *)
Lemma init_fresh_value cls reg args kwargs f d v s :
  kwargs !! "value" = Some v ->
  is_None v = false ->
  super_init cls args (delete "value" kwargs) = Ok f ->
  pk f = None ->
  registry cls = Some reg ->
  get reg (section f) (name f) = Ok d ->
  serialize (serializer d) v = Ok s ->
  __init__ super_init cls args kwargs = Ok (initialised cls f d s).
Proof.
  intros Hv Hn Hf Hpk Hr Hg Hs. unfold __init__.
  rewrite Hv, Hf, Hn. cbn [fields negb].
  rewrite bool_decide_eq_true_2 by done. fold (constructed cls f).
  by rewrite (set_value_accepted _ _ _ _ _
                (constructed_preference _ _ _ _ Hr Hg) Hs).
Qed.

(** A fresh object built with [None], or without any value. *)
Lemma init_fresh_default cls reg args kwargs f d s :
  kwargs !! "value" = None \/ kwargs !! "value" = Some PyNone ->
  super_init cls args (delete "value" kwargs) = Ok f ->
  pk f = None ->
  registry cls = Some reg ->
  get reg (section f) (name f) = Ok d ->
  serialize (serializer d) (default d) = Ok s ->
  __init__ super_init cls args kwargs = Ok (initialised cls f d s).
Proof.
  intros Hv Hf Hpk Hr Hg Hs. unfold __init__.
  assert (match kwargs !! "value" with Some x => x | None => PyNone end
          = PyNone) as -> by (by destruct Hv as [-> | ->]).
  rewrite Hf. cbn [fields negb is_None].
  rewrite bool_decide_eq_true_2 by done.
  pose proof (constructed_preference _ _ _ _ Hr Hg) as Hp.
  unfold bind at 1. fold (constructed cls f). rewrite Hp.
  by rewrite (set_value_accepted _ _ _ _ _ (preference_memoized _ _ _ Hp) Hs).
Qed.

(** An object that already has a primary key. *)
Lemma init_persisted cls args kwargs f :
  super_init cls args (delete "value" kwargs) = Ok f ->
  pk f <> None ->
  __init__ super_init cls args kwargs = Ok (constructed cls f).
Proof.
  intros Hf Hpk. unfold __init__. rewrite Hf. cbn [fields].
  by rewrite bool_decide_eq_false_2.
Qed.

End ConstructorFacts.

(** ** Construction policy *)

(** C1. A fresh record (no primary key) built without a [value] argument,
    for coordinates its class's registry knows, receives the encoding of
    the definition's default in [raw_value]; when the serializer decodes
    that encoding back to the default, reading [value] returns the
    default. *)
Theorem init_materializes_default
    (super_init :
       PreferenceClass -> list pyval -> gmap string pyval -> result Fields)
    (cls : PreferenceClass) (reg : Registry) (args : list pyval)
    (kwargs : gmap string pyval) (f : Fields) (d : Preference) (s : string) :
  kwargs !! "value" = None ->
  super_init cls args (delete "value" kwargs) = Ok f ->
  pk f = None ->
  registry cls = Some reg ->
  get reg (section f) (name f) = Ok d ->
  serialize (serializer d) (default d) = Ok s ->
  deserialize (serializer d) (Some s) = Ok (default d) ->
  exists self,
    __init__ super_init cls args kwargs = Ok self /\
    section self = section f /\ name self = name f /\
    raw_value self = Some s /\
    fst (get_value self) = Ok (default d).
Proof.
  intros Hv Hf Hpk Hr Hg Hs Hd. exists (initialised cls f d s).
  split; [by eapply init_fresh_default; eauto|].
  do 3 (split; [reflexivity|]).
  by rewrite (initialised_value _ _ _ _ _ Hr Hg).
Qed.

Lemma init_materializes_default_witness :
  exists self,
    __init__ Sample.keyword_init Sample.SamplePreferenceModel []
      {[ "section" := PyStr "ui"; "name" := PyStr "theme" ]} = Ok self /\
    section self = Some "ui" /\ name self = "theme" /\
    raw_value self = Some "light" /\
    fst (get_value self) = Ok (PyStr "light").
Proof.
  apply (init_materializes_default Sample.keyword_init
           Sample.SamplePreferenceModel Sample.sample_registry []
           {[ "section" := PyStr "ui"; "name" := PyStr "theme" ]}
           {| pk := None; section := Some "ui"; name := "theme";
              raw_value := None; instance := None |}
           {| default := PyStr "light";
              serializer := Sample.string_serializer |} "light");
    vm_compute; reflexivity.
Defined.

(** C2, as amended. A fresh record built with an explicit value [v] other
    than [None], accepted by the serializer of its definition and decoded
    back to [v], reads back [v], whatever the definition's default is. *)
Theorem init_explicit_value_precedence
    (super_init :
       PreferenceClass -> list pyval -> gmap string pyval -> result Fields)
    (cls : PreferenceClass) (reg : Registry) (args : list pyval)
    (kwargs : gmap string pyval) (f : Fields) (d : Preference)
    (v : pyval) (s : string) :
  kwargs !! "value" = Some v ->
  v <> PyNone ->
  super_init cls args (delete "value" kwargs) = Ok f ->
  pk f = None ->
  registry cls = Some reg ->
  get reg (section f) (name f) = Ok d ->
  serialize (serializer d) v = Ok s ->
  deserialize (serializer d) (Some s) = Ok v ->
  exists self,
    __init__ super_init cls args kwargs = Ok self /\
    raw_value self = Some s /\
    fst (get_value self) = Ok v.
Proof.
  intros Hv Hn Hf Hpk Hr Hg Hs Hd. exists (initialised cls f d s).
  split.
  - eapply init_fresh_value; eauto. by destruct v.
  - split; [reflexivity|]. by rewrite (initialised_value _ _ _ _ _ Hr Hg).
Qed.

Lemma init_explicit_value_precedence_witness :
  exists self,
    __init__ Sample.keyword_init Sample.SamplePreferenceModel []
      {[ "section" := PyStr "ui"; "name" := PyStr "compact";
         "value" := PyBool true ]} = Ok self /\
    raw_value self = Some "True" /\
    fst (get_value self) = Ok (PyBool true).
Proof.
  apply (init_explicit_value_precedence Sample.keyword_init
           Sample.SamplePreferenceModel Sample.sample_registry []
           {[ "section" := PyStr "ui"; "name" := PyStr "compact";
              "value" := PyBool true ]}
           {| pk := None; section := Some "ui"; name := "compact";
              raw_value := None; instance := None |}
           {| default := PyBool false;
              serializer := Sample.boolean_serializer |}
           (PyBool true) "True");
    try (vm_compute; reflexivity).
  discriminate.
Defined.

(** C2, as stated, fails: [None] is a value the nullable serializer
    accepts and decodes back, yet a record built with [value=None] reads
    back the default [True]. *)
Lemma init_explicit_None_counterexample :
  ~ (forall (super_init :
               PreferenceClass -> list pyval -> gmap string pyval ->
               result Fields)
            (cls : PreferenceClass) (reg : Registry) (args : list pyval)
            (kwargs : gmap string pyval) (f : Fields) (d : Preference)
            (v : pyval) (s : string),
        kwargs !! "value" = Some v ->
        super_init cls args (delete "value" kwargs) = Ok f ->
        pk f = None ->
        registry cls = Some reg ->
        get reg (section f) (name f) = Ok d ->
        serialize (serializer d) v = Ok s ->
        deserialize (serializer d) (Some s) = Ok v ->
        exists self,
          __init__ super_init cls args kwargs = Ok self /\
          fst (get_value self) = Ok v).
Proof.
  intros H.
  destruct (H Sample.keyword_init Sample.SamplePreferenceModel
              Sample.sample_registry []
              {[ "name" := PyStr "notify"; "value" := PyNone ]}
              {| pk := None; section := None; name := "notify";
                 raw_value := None; instance := None |}
              {| default := PyBool true;
                 serializer := Sample.nullable_boolean_serializer |}
              PyNone "None")
    as (self & Hinit & Hval); try (vm_compute; reflexivity).
  vm_compute in Hinit. injection Hinit as <-.
  vm_compute in Hval. discriminate.
Qed.

(** C8. Building the object of a stored row (its primary key is set) runs
    none of the default logic: the result is the object the base
    constructor made, with [raw_value] as loaded and no definition looked
    up, whether or not a [value] argument is passed and whatever the
    registry holds. *)
Theorem init_persisted_keeps_raw_value
    (super_init :
       PreferenceClass -> list pyval -> gmap string pyval -> result Fields)
    (cls : PreferenceClass) (args : list pyval)
    (kwargs : gmap string pyval) (f : Fields) :
  super_init cls args (delete "value" kwargs) = Ok f ->
  pk f <> None ->
  exists self,
    __init__ super_init cls args kwargs = Ok self /\
    fields self = f /\
    raw_value self = raw_value f /\
    cached_preference self = None.
Proof.
  intros Hf Hpk. exists (constructed cls f).
  split; [by apply init_persisted|]. by repeat split.
Qed.

Lemma init_persisted_keeps_raw_value_witness :
  exists self,
    __init__ Sample.keyword_init Sample.SamplePreferenceModel []
      {[ "id" := PyInt 7; "section" := PyStr "ui"; "name" := PyStr "theme";
         "raw_value" := PyStr "dark"; "value" := PyStr "solarized" ]}
    = Ok self /\
    fields self = {| pk := Some 7%Z; section := Some "ui"; name := "theme";
                     raw_value := Some "dark"; instance := None |} /\
    raw_value self = Some "dark" /\
    cached_preference self = None.
Proof.
  apply (init_persisted_keeps_raw_value Sample.keyword_init
           Sample.SamplePreferenceModel []
           {[ "id" := PyInt 7; "section" := PyStr "ui";
              "name" := PyStr "theme"; "raw_value" := PyStr "dark";
              "value" := PyStr "solarized" ]}
           {| pk := Some 7%Z; section := Some "ui"; name := "theme";
              raw_value := Some "dark"; instance := None |}).
  - vm_compute; reflexivity.
  - discriminate.
Defined.

(** C9. Passing [value=None] is the same call as passing no [value]: the
    constructor returns the same outcome for both, and on a fresh record
    of a registered definition that outcome carries the encoding of the
    definition's default. *)
Theorem init_None_value_is_no_value :
  (forall (super_init :
             PreferenceClass -> list pyval -> gmap string pyval ->
             result Fields)
          (cls : PreferenceClass) (args : list pyval)
          (kwargs : gmap string pyval),
      __init__ super_init cls args (<["value" := PyNone]> kwargs)
      = __init__ super_init cls args (delete "value" kwargs)) /\
  (forall (super_init :
             PreferenceClass -> list pyval -> gmap string pyval ->
             result Fields)
          (cls : PreferenceClass) (reg : Registry) (args : list pyval)
          (kwargs : gmap string pyval) (f : Fields) (d : Preference)
          (s : string),
      super_init cls args (delete "value" kwargs) = Ok f ->
      pk f = None ->
      registry cls = Some reg ->
      get reg (section f) (name f) = Ok d ->
      serialize (serializer d) (default d) = Ok s ->
      exists self,
        __init__ super_init cls args (<["value" := PyNone]> kwargs)
        = Ok self /\
        raw_value self = Some s).
Proof.
  split.
  - intros super_init cls args kwargs. unfold __init__.
    rewrite lookup_insert_eq, lookup_delete_eq.
    by rewrite delete_insert_eq, delete_delete_eq.
  - intros super_init cls reg args kwargs f d s Hf Hpk Hr Hg Hs.
    exists (initialised cls f d s). split; [|reflexivity].
    eapply init_fresh_default; eauto.
    + right. apply lookup_insert_eq.
    + by rewrite delete_insert_eq.
Qed.

Lemma init_None_value_is_no_value_witness :
  exists self,
    __init__ Sample.keyword_init Sample.SamplePreferenceModel []
      (<["value" := PyNone]>
         {[ "section" := PyStr "ui"; "name" := PyStr "compact" ]})
    = Ok self /\
    raw_value self = Some "False".
Proof.
  apply (proj2 init_None_value_is_no_value Sample.keyword_init
           Sample.SamplePreferenceModel Sample.sample_registry []
           {[ "section" := PyStr "ui"; "name" := PyStr "compact" ]}
           {| pk := None; section := Some "ui"; name := "compact";
              raw_value := None; instance := None |}
           {| default := PyBool false;
              serializer := Sample.boolean_serializer |} "False");
    vm_compute; reflexivity.
Defined.

(** ** Errors of the accessor *)

(** C5. When the serializer of the record's definition rejects [v] with
    error [e], assigning [v] to [value] raises [e] and [raw_value] is what
    it was before the assignment. *)
Theorem set_value_rejected_keeps_raw_value
    (self self' : Model) (d : Preference) (v : pyval) (e : exn) :
  preference self = (Ok d, self') ->
  serialize (serializer d) v = Err e ->
  fst (set_value v self) = Err e /\
  raw_value (snd (set_value v self)) = raw_value self /\
  fields (snd (set_value v self)) = fields self.
Proof.
  intros Hp Hs. rewrite (set_value_rejected _ _ _ _ _ Hp Hs). cbn.
  destruct (preference_keeps_fields _ _ _ Hp) as [Hf _].
  by rewrite Hf.
Qed.

Lemma set_value_rejected_keeps_raw_value_witness :
  let self := Sample.stored 3 1 (Some "ui") "compact" "True" in
  fst (set_value (PyStr "yes") self) = Err SerializationError /\
  raw_value (snd (set_value (PyStr "yes") self)) = Some "True" /\
  fields (snd (set_value (PyStr "yes") self)) = fields self.
Proof.
  intros self.
  apply (set_value_rejected_keeps_raw_value self
           (set_cached_preference self
              {| default := PyBool false;
                 serializer := Sample.boolean_serializer |})
           {| default := PyBool false;
              serializer := Sample.boolean_serializer |}
           (PyStr "yes") SerializationError);
    vm_compute; reflexivity.
Defined.

(** C6. When the deserializer of the record's definition fails on
    [raw_value] with error [e], reading [value] raises [e]: no value is
    returned, in particular not the definition's default. *)
Theorem get_value_corruption_surfaces
    (self self' : Model) (d : Preference) (e : exn) :
  preference self = (Ok d, self') ->
  deserialize (serializer d) (raw_value self) = Err e ->
  fst (get_value self) = Err e /\
  (forall v, fst (get_value self) <> Ok v) /\
  fst (get_value self) <> Ok (default d).
Proof.
  intros Hp Hd. rewrite (get_value_found _ _ _ Hp), Hd. cbn.
  by repeat split.
Qed.

Lemma get_value_corruption_surfaces_witness :
  let self := Sample.stored 3 1 (Some "ui") "compact" "maybe" in
  fst (get_value self) = Err DeserializationError /\
  (forall v, fst (get_value self) <> Ok v) /\
  fst (get_value self) <> Ok (PyBool false).
Proof.
  intros self.
  apply (get_value_corruption_surfaces self
           (set_cached_preference self
              {| default := PyBool false;
                 serializer := Sample.boolean_serializer |})
           {| default := PyBool false;
              serializer := Sample.boolean_serializer |}
           DeserializationError);
    vm_compute; reflexivity.
Defined.

(** ** The bulk read *)

Section LoopFacts.

Implicit Types (d : Dict) (p r : Model) (rs : list Model) (v : pyval).

Lemma entry_with_entry d sec nm v sec' nm' :
  entry (with_entry d sec nm v) sec' nm'
  = if decide (sec = sec' /\ nm = nm') then Some v else entry d sec' nm'.
Proof.
  unfold entry, with_entry.
  destruct (decide (sec = sec')) as [<-|Hs].
  - rewrite lookup_insert_eq.
    destruct (decide (nm = nm')) as [<-|Hn].
    + rewrite lookup_insert_eq. by rewrite decide_True.
    + rewrite lookup_insert_ne by done.
      rewrite decide_False by (by intros [_ ?]).
      by destruct (d !! sec).
  - rewrite lookup_insert_ne by done.
    by rewrite decide_False by (by intros [? _]).
Qed.

Lemma with_entry_section d sec nm v sec' :
  is_Some (with_entry d sec nm v !! sec')
  <-> sec = sec' \/ is_Some (d !! sec').
Proof.
  unfold with_entry. rewrite lookup_insert_is_Some. split.
  - intros [?|[? ?]]; auto.
  - intros [?|?]; [by left|].
    destruct (decide (sec = sec')); [by left|by right].
Qed.

(** One iteration on a record whose value can be read. *)
Lemma to_dict_body_decodes d p v :
  fst (get_value p) = Ok v ->
  to_dict_body d p = Ok (with_entry d (section p) (name p) v).
Proof.
  intros Hv. unfold to_dict_body, assign_value.
  destruct (get_value p) as [r p'] eqn:Hg. cbn in Hv. subst r.
  rewrite (get_value_keeps_fields _ _ _ Hg).
  unfold setitem2, with_entry.
  destruct (d !! section p) as [inner|] eqn:Hd; [done|].
  cbn [except_KeyError]. unfold assign_value.
  rewrite (get_value_again _ _ _ Hg).
  rewrite (get_value_keeps_fields _ _ _ Hg). cbn [fst].
  unfold setitem2. rewrite lookup_insert_eq.
  by rewrite insert_insert_eq.
Qed.

(** One iteration on a record whose value cannot be read: the error
    leaves the loop, also when the [except KeyError] clause caught it
    first. *)
Lemma to_dict_body_raises d p e :
  fst (get_value p) = Err e -> to_dict_body d p = Err e.
Proof.
  intros Hv. unfold to_dict_body, assign_value.
  destruct (get_value p) as [r p'] eqn:Hg. cbn in Hv. subst r.
  destruct (except_KeyError e); [|done].
  unfold assign_value. by rewrite (get_value_again _ _ _ Hg).
Qed.

Lemma to_dict_body_scan d p :
  decodable p = true -> to_dict_body d p = Ok (scan d p).
Proof.
  unfold decodable, scan. destruct (fst (get_value p)) eqn:Hv; [|done].
  intros _. by apply to_dict_body_decodes.
Qed.

Lemma to_dict_loop_scans d rs :
  Forall (fun p => decodable p = true) rs ->
  to_dict_loop d rs = Ok (foldl scan d rs).
Proof.
  intros Hrs. revert d.
  induction Hrs as [|p rs Hp _ IH]; intros d; [done|].
  cbn. rewrite (to_dict_body_scan _ _ Hp). apply IH.
Qed.

Lemma to_dict_loop_raises d l1 p l2 e :
  Forall (fun p => decodable p = true) l1 ->
  fst (get_value p) = Err e ->
  to_dict_loop d (l1 ++ p :: l2) = Err e.
Proof.
  intros Hl1 He. revert d.
  induction Hl1 as [|q l1 Hq _ IH]; intros d; cbn.
  - by rewrite (to_dict_body_raises _ _ _ He).
  - rewrite (to_dict_body_scan _ _ Hq). apply IH.
Qed.

(** A scan that contains a record that cannot be read has a first one. *)
Lemma first_undecodable rs :
  Exists (fun p => decodable p = false) rs ->
  exists l1 p l2 e,
    rs = l1 ++ p :: l2 /\
    Forall (fun p => decodable p = true) l1 /\
    fst (get_value p) = Err e.
Proof.
  induction rs as [|q rs IH]; intros Hex; [by inversion Hex|].
  destruct (decodable q) eqn:Hq.
  - destruct IH as (l1 & p & l2 & e & -> & Hl1 & He).
    { inversion Hex; subst; [congruence|done]. }
    exists (q :: l1), p, l2, e. by repeat split; [constructor|].
  - unfold decodable in Hq.
    destruct (fst (get_value q)) as [|e] eqn:He; [done|].
    by exists [], q, rs, e.
Qed.

(** Records scanned later that sit elsewhere leave an entry alone. *)
Lemma foldl_scan_elsewhere d rs sec nm :
  Forall (fun p => ~ (section p = sec /\ name p = nm)) rs ->
  entry (foldl scan d rs) sec nm = entry d sec nm.
Proof.
  intros Hrs. revert d.
  induction Hrs as [|p rs Hp _ IH]; intros d; [done|].
  cbn. rewrite IH. unfold scan.
  destruct (fst (get_value p)); [|done].
  rewrite entry_with_entry. by rewrite decide_False.
Qed.

(** Every entry was stored by some scanned record, or was there before. *)
Lemma foldl_scan_origin d rs sec nm v :
  entry (foldl scan d rs) sec nm = Some v ->
  entry d sec nm = Some v \/
  exists p, p ∈ rs /\ section p = sec /\ name p = nm /\
            fst (get_value p) = Ok v.
Proof.
  revert d. induction rs as [|p rs IH]; intros d; [by left|].
  cbn. intros H. destruct (IH _ H) as [Hd|(q & Hq & ?)].
  - unfold scan in Hd. destruct (fst (get_value p)) as [w|] eqn:Hw;
      [|by left].
    rewrite entry_with_entry in Hd. case_decide as Hc; [|by left].
    right. exists p. destruct Hc as [<- <-]. inversion Hd; subst.
    split; [by left|done].
  - right. exists q. split; [by right|done].
Qed.

Lemma foldl_scan_sections d rs sec :
  is_Some (foldl scan d rs !! sec)
  <-> is_Some (d !! sec) \/
      exists p, p ∈ rs /\ decodable p = true /\ section p = sec.
Proof.
  revert d. induction rs as [|p rs IH]; intros d; cbn.
  - split; [by left|]. intros [?|(p & Hp & _)]; [done|].
    by apply not_elem_of_nil in Hp.
  - rewrite IH. unfold scan, decodable.
    destruct (fst (get_value p)) as [w|] eqn:Hw; cbn.
    + rewrite with_entry_section. split.
      * intros [[<-|?]|(q & Hq & ? & ?)]; [right|by left|right].
        -- exists p. rewrite Hw. by repeat split; [left|..].
        -- exists q. by repeat split; [right|..].
      * intros [?|(q & Hq & Hdq & <-)]; [by left; right|].
        apply elem_of_cons in Hq as [->|Hq]; [by left; left|].
        right. by exists q.
    + split.
      * intros [?|(q & Hq & ? & ?)]; [by left|right].
        exists q. by repeat split; [right|..].
      * intros [?|(q & Hq & Hdq & <-)]; [by left|].
        apply elem_of_cons in Hq as [->|Hq]; [by rewrite Hw in Hdq|].
        right. by exists q.
Qed.

End LoopFacts.

(** C3. When every scanned record can be read, [to_dict] returns a dict
    keyed by section, then by name, such that: a record no later record
    shares coordinates with has its value under its coordinates; every
    entry is the value of a scanned record with those coordinates; the
    section of every scanned record, the null section included, is a key
    of the dict; and three records at [(s1,n1)], [(s1,n2)], [(s2,n3)] with
    [s1 <> s2] give [{s1: {n1: v1, n2: v2}, s2: {n3: v3}}]. *)
Theorem to_dict_groups_by_section_then_name
    (qs_filter : gmap string pyval -> list Model -> result (list Model))
    (self : PreferenceModelManager) (kwargs : gmap string pyval)
    (rs : list Model) :
  scanned qs_filter self kwargs = Ok rs ->
  Forall (fun p => decodable p = true) rs ->
  exists d : Dict,
    to_dict qs_filter self kwargs = Ok d /\
    (forall l1 (p : Model) l2 v,
        rs = l1 ++ p :: l2 ->
        fst (get_value p) = Ok v ->
        Forall (fun q => ~ same_coordinates q p) l2 ->
        exists inner, d !! section p = Some inner /\
                      inner !! name p = Some v) /\
    (forall sec inner nm v,
        d !! sec = Some inner -> inner !! nm = Some v ->
        exists p : Model, p ∈ rs /\ section p = sec /\ name p = nm /\
                          fst (get_value p) = Ok v) /\
    (forall sec,
        is_Some (d !! sec) <-> exists p : Model, p ∈ rs /\ section p = sec) /\
    (forall (r1 r2 r3 : Model) s1 s2 n1 n2 n3 v1 v2 v3,
        rs = [r1; r2; r3] ->
        section r1 = s1 -> name r1 = n1 -> fst (get_value r1) = Ok v1 ->
        section r2 = s1 -> name r2 = n2 -> fst (get_value r2) = Ok v2 ->
        section r3 = s2 -> name r3 = n3 -> fst (get_value r3) = Ok v3 ->
        s1 <> s2 ->
        d = <[s2 := {[n3 := v3]}]> {[s1 := <[n2 := v2]> {[n1 := v1]}]}).
Proof.
  intros Hscan Hrs. exists (foldl scan ∅ rs).
  split; [|split; [|split; [|split]]].
  - unfold to_dict. rewrite Hscan. by apply to_dict_loop_scans.
  - intros l1 p l2 v -> Hv Hl2.
    assert (entry (foldl scan ∅ (l1 ++ p :: l2)) (section p) (name p)
            = Some v) as He.
    { rewrite foldl_app. cbn [foldl].
      rewrite foldl_scan_elsewhere by done.
      unfold scan at 1. rewrite Hv, entry_with_entry.
      by rewrite decide_True. }
    unfold entry in He.
    destruct (foldl scan ∅ (l1 ++ p :: l2) !! section p) as [inner|];
      [|done].
    by exists inner.
  - intros sec inner nm v Hd Hi.
    destruct (foldl_scan_origin ∅ rs sec nm v) as [He|Hp]; [|done..].
    unfold entry. by rewrite Hd.
  - intros sec. rewrite foldl_scan_sections. split.
    + intros [[? H]|(p & Hp & _ & Hs)]; [by rewrite lookup_empty in H|].
      by exists p.
    + intros (p & Hp & Hs). right. exists p. repeat split; [done| |done].
      by apply (proj1 (Forall_forall _ _) Hrs).
  - intros r1 r2 r3 s1 s2 n1 n2 n3 v1 v2 v3 -> <- <- Hv1 Hs2 <- Hv2 <- <- Hv3
      Hne.
    cbn [foldl]. unfold scan. rewrite Hv1, Hv2, Hv3, Hs2.
    unfold with_entry. rewrite lookup_empty, lookup_insert_eq.
    rewrite insert_insert_eq.
    rewrite lookup_insert_ne by done. by rewrite lookup_empty.
Qed.

Lemma to_dict_groups_by_section_then_name_witness :
  to_dict Sample.exact_filter
    {| get_queryset :=
         [ Sample.stored 1 1 (Some "ui") "theme" "dark";
           Sample.stored 2 1 (Some "ui") "compact" "True";
           Sample.stored 3 1 None "notify" "None" ] |} ∅
  = Ok (<[None := {[ "notify" := PyNone ]}]>
          {[ Some "ui" := <["compact" := PyBool true]>
                            {[ "theme" := PyStr "dark" ]} ]}).
Proof.
  destruct (to_dict_groups_by_section_then_name Sample.exact_filter
              {| get_queryset :=
                   [ Sample.stored 1 1 (Some "ui") "theme" "dark";
                     Sample.stored 2 1 (Some "ui") "compact" "True";
                     Sample.stored 3 1 None "notify" "None" ] |} ∅
              [ Sample.stored 1 1 (Some "ui") "theme" "dark";
                Sample.stored 2 1 (Some "ui") "compact" "True";
                Sample.stored 3 1 None "notify" "None" ])
    as (d & Hd & _ & _ & _ & Hex).
  - reflexivity.
  - repeat constructor.
  - rewrite Hd. f_equal.
    apply (Hex _ _ _ (Some "ui") None "theme" "compact" "notify"
             (PyStr "dark") (PyBool true) PyNone eq_refl);
      first [reflexivity | discriminate].
Defined.

(** C7. When some scanned record cannot be read, because the registry
    lookup of its coordinates raises or because its [raw_value] fails to
    decode, [to_dict] raises and returns no dict: the error is the one of
    the first such record in scan order, so it is [e] itself when the
    records scanned before can be read. *)
Theorem to_dict_all_or_nothing
    (qs_filter : gmap string pyval -> list Model -> result (list Model))
    (self : PreferenceModelManager) (kwargs : gmap string pyval)
    (rs : list Model) (p : Model) (e : exn) :
  scanned qs_filter self kwargs = Ok rs ->
  p ∈ rs ->
  preference p = (Err e, p) \/
  (exists d p', preference p = (Ok d, p') /\
                deserialize (serializer d) (raw_value p) = Err e) ->
  (forall d : Dict, to_dict qs_filter self kwargs <> Ok d) /\
  (exists l1 (p0 : Model) l2 e0,
      rs = l1 ++ p0 :: l2 /\
      Forall (fun q => decodable q = true) l1 /\
      fst (get_value p0) = Err e0 /\
      to_dict qs_filter self kwargs = Err e0) /\
  (forall l1 l2,
      rs = l1 ++ p :: l2 ->
      Forall (fun q => decodable q = true) l1 ->
      to_dict qs_filter self kwargs = Err e).
Proof.
  intros Hscan Hin Hp.
  assert (fst (get_value p) = Err e) as He.
  { destruct Hp as [Hp|(d & p' & Hp & Hd)].
    - by rewrite (get_value_not_found _ _ _ Hp).
    - by rewrite (get_value_found _ _ _ Hp). }
  assert (exists l1 (p0 : Model) l2 e0,
             rs = l1 ++ p0 :: l2 /\
             Forall (fun q => decodable q = true) l1 /\
             fst (get_value p0) = Err e0 /\
             to_dict qs_filter self kwargs = Err e0) as Hfirst.
  { destruct (first_undecodable rs) as (l1 & p0 & l2 & e0 & -> & Hl1 & He0).
    - apply Exists_exists. exists p. split; [done|].
      unfold decodable. by rewrite He.
    - exists l1, p0, l2, e0. repeat split; try done.
      unfold to_dict. rewrite Hscan. by apply to_dict_loop_raises. }
  split; [|split; [done|]].
  - intros d. destruct Hfirst as (_ & _ & _ & e0 & _ & _ & _ & ->). done.
  - intros l1 l2 -> Hl1. unfold to_dict. rewrite Hscan.
    by apply to_dict_loop_raises.
Qed.

Lemma to_dict_all_or_nothing_witness :
  to_dict Sample.exact_filter
    {| get_queryset :=
         [ Sample.stored 1 1 (Some "ui") "theme" "dark";
           Sample.stored 2 1 (Some "ui") "retired" "True";
           Sample.stored 3 1 None "notify" "None" ] |} ∅
  = Err KeyError.
Proof.
  destruct (to_dict_all_or_nothing Sample.exact_filter
              {| get_queryset :=
                   [ Sample.stored 1 1 (Some "ui") "theme" "dark";
                     Sample.stored 2 1 (Some "ui") "retired" "True";
                     Sample.stored 3 1 None "notify" "None" ] |} ∅
              [ Sample.stored 1 1 (Some "ui") "theme" "dark";
                Sample.stored 2 1 (Some "ui") "retired" "True";
                Sample.stored 3 1 None "notify" "None" ]
              (Sample.stored 2 1 (Some "ui") "retired" "True") KeyError)
    as (_ & _ & Hfirst).
  - reflexivity.
  - right; left.
  - left. reflexivity.
  - apply (Hfirst [Sample.stored 1 1 (Some "ui") "theme" "dark"]
             [Sample.stored 3 1 None "notify" "None"] eq_refl).
    repeat constructor.
Defined.

(** C10. Called without an owner filter, when two scanned records of
    different owners share their section and name, the dict has one entry
    at these coordinates: the value of the one scanned later (no record
    scanned after it sits there), and the call returns that dict without
    any error. *)
Theorem to_dict_last_scanned_owner_wins
    (qs_filter : gmap string pyval -> list Model -> result (list Model))
    (self : PreferenceModelManager) (kwargs : gmap string pyval)
    (l1 l2 l3 : list Model) (p1 p2 : Model) (v1 v2 : pyval) :
  kwargs !! "instance" = None ->
  scanned qs_filter self kwargs = Ok (l1 ++ p1 :: l2 ++ p2 :: l3) ->
  Forall (fun q => decodable q = true) (l1 ++ p1 :: l2 ++ p2 :: l3) ->
  instance p1 <> instance p2 ->
  same_coordinates p1 p2 ->
  fst (get_value p1) = Ok v1 ->
  fst (get_value p2) = Ok v2 ->
  Forall (fun q => ~ same_coordinates q p2) l3 ->
  exists (d : Dict) inner,
    to_dict qs_filter self kwargs = Ok d /\
    d !! section p1 = Some inner /\
    inner !! name p1 = Some v2 /\
    (v1 <> v2 -> inner !! name p1 <> Some v1).
Proof.
  intros _ Hscan Hrs _ [Hs Hn] _ Hv2 Hl3.
  assert (entry (foldl scan ∅ (l1 ++ p1 :: l2 ++ p2 :: l3))
            (section p2) (name p2) = Some v2) as He.
  { rewrite foldl_app. cbn [foldl]. rewrite foldl_app. cbn [foldl].
    rewrite foldl_scan_elsewhere by done.
    unfold scan at 1. rewrite Hv2, entry_with_entry.
    by rewrite decide_True. }
  unfold entry in He. rewrite <- Hs, <- Hn in He.
  destruct (foldl scan ∅ (l1 ++ p1 :: l2 ++ p2 :: l3) !! section p1)
    as [inner|] eqn:Hd; [|done].
  exists (foldl scan ∅ (l1 ++ p1 :: l2 ++ p2 :: l3)), inner.
  split; [|split; [done|split; [done|]]].
  - unfold to_dict. rewrite Hscan. by apply to_dict_loop_scans.
  - rewrite He. congruence.
Qed.

Lemma to_dict_last_scanned_owner_wins_witness :
  exists (d : Dict) inner,
    to_dict Sample.exact_filter
      {| get_queryset :=
           [ Sample.stored 1 1 (Some "ui") "theme" "dark";
             Sample.stored 2 2 (Some "ui") "theme" "light" ] |} ∅
    = Ok d /\
    d !! Some "ui" = Some inner /\
    inner !! "theme" = Some (PyStr "light") /\
    (PyStr "dark" <> PyStr "light" -> inner !! "theme" <> Some (PyStr "dark")).
Proof.
  apply (to_dict_last_scanned_owner_wins Sample.exact_filter
           {| get_queryset :=
                [ Sample.stored 1 1 (Some "ui") "theme" "dark";
                  Sample.stored 2 2 (Some "ui") "theme" "light" ] |} ∅
           [] [] []
           (Sample.stored 1 1 (Some "ui") "theme" "dark")
           (Sample.stored 2 2 (Some "ui") "theme" "light")
           (PyStr "dark") (PyStr "light")).
  - reflexivity.
  - reflexivity.
  - repeat constructor.
  - discriminate.
  - split; reflexivity.
  - reflexivity.
  - reflexivity.
  - constructor.
Defined.

(** ** The post-save hook *)

Lemma call_create_default_preferences_calls reg instance w :
  calls (snd (call_create_default_preferences reg instance w))
  = calls w ++ [Call_create_default_preferences reg instance].
Proof.
  unfold call_create_default_preferences.
  by destruct (create_default_preferences reg instance (rows w)).
Qed.

Lemma call_create_default_preferences_rows reg instance w :
  (fst (call_create_default_preferences reg instance w),
   rows (snd (call_create_default_preferences reg instance w)))
  = create_default_preferences reg instance (rows w).
Proof.
  unfold call_create_default_preferences.
  by destruct (create_default_preferences reg instance (rows w)).
Qed.

Lemma not_own_extension {A} (l : list A) (x : A) : l <> l ++ [x].
Proof.
  intros H. apply (f_equal length) in H. rewrite length_app in H.
  cbn in H. lia.
Qed.

(** C4. The hook calls [create_default_preferences(instance)] of the
    registry bound to the sender's preference class, once, exactly when
    [created] is true and the sender is in the index; when the sender is
    not in the index, or [created] is false, it returns at once: no call is
    made and the stored rows are the same. *)
Theorem hook_provisions_once_iff_created_and_bound
    (per_instance_preferences : gmap string PreferenceClass)
    (sender : string) (created : bool) (instance : Z) (w : World) :
  let out :=
    create_default_per_instance_preferences per_instance_preferences
      sender created instance w in
  (forall cls reg,
      created = true ->
      per_instance_preferences !! sender = Some cls ->
      registry cls = Some reg ->
      calls (snd out)
      = calls w ++ [Call_create_default_preferences reg instance] /\
      (fst out, rows (snd out))
      = create_default_preferences reg instance (rows w)) /\
  (created = false \/ per_instance_preferences !! sender = None ->
   out = (Ok tt, w)) /\
  (forall reg,
      calls (snd out)
      = calls w ++ [Call_create_default_preferences reg instance]
      <-> created = true /\
          exists cls, per_instance_preferences !! sender = Some cls /\
                      registry cls = Some reg) /\
  ((forall s cls, per_instance_preferences !! s = Some cls ->
                  is_Some (registry cls)) ->
   (length (calls (snd out)) = S (length (calls w))
    <-> created = true /\ is_Some (per_instance_preferences !! sender)) /\
   (~ (created = true /\ is_Some (per_instance_preferences !! sender)) ->
    out = (Ok tt, w))).
Proof.
  intros out. subst out. unfold create_default_per_instance_preferences.
  split; [|split; [|split]].
  - intros cls reg -> -> ->. split.
    + apply call_create_default_preferences_calls.
    + apply call_create_default_preferences_rows.
  - intros [->| ->]; [done|]. by destruct created.
  - intros reg. split.
    + destruct created; [|by intros ?%not_own_extension].
      destruct (per_instance_preferences !! sender) as [cls|];
        [|by intros ?%not_own_extension].
      destruct (registry cls) as [reg'|] eqn:Hr;
        [|by intros ?%not_own_extension].
      rewrite call_create_default_preferences_calls.
      intros H%app_inv_head. injection H as ->.
      split; [done|]. by exists cls.
    + intros [-> (cls & -> & ->)].
      apply call_create_default_preferences_calls.
  - intros Hbound. split; [split|].
    + destruct created; [|cbn; lia].
      destruct (per_instance_preferences !! sender) as [cls|];
        [|cbn; lia].
      by intros _.
    + intros [-> [cls Hcls]]. rewrite Hcls.
      destruct (Hbound _ _ Hcls) as [reg ->].
      rewrite call_create_default_preferences_calls, length_app. cbn. lia.
    + intros Hno. destruct created; [|done].
      destruct (per_instance_preferences !! sender) as [cls|]; [|done].
      destruct Hno. by split.
Qed.

Lemma hook_provisions_once_iff_created_and_bound_witness :
  let out :=
    create_default_per_instance_preferences
      {[ "auth.User" := Sample.SamplePreferenceModel ]}
      "auth.User" true 5 {| rows := []; calls := [] |} in
  calls (snd out)
  = [] ++ [Call_create_default_preferences Sample.sample_registry 5] /\
  (fst out, rows (snd out))
  = create_default_preferences Sample.sample_registry 5 [].
Proof.
  apply (proj1 (hook_provisions_once_iff_created_and_bound
                  {[ "auth.User" := Sample.SamplePreferenceModel ]}
                  "auth.User" true 5 {| rows := []; calls := [] |})
           Sample.SamplePreferenceModel Sample.sample_registry);
    reflexivity.
Defined.

(** * Further properties *)

(** ** The accessor on an existing record *)

Lemma preference_after_set (self : Model) (d : Preference) (raw : option string) :
  preference self = (Ok d, self) ->
  preference (set_raw_value self raw) = (Ok d, set_raw_value self raw).
Proof.
  unfold preference. cbn.
  destruct (cached_preference self) eqn:Hc; [by intros [= ->]|].
  destruct (registry (class_of self)); [|by intros [=]].
  destruct (get _ _ _); [|by intros [=]].
  intros H. apply (f_equal (fun x => cached_preference (snd x))) in H.
  cbn in H. congruence.
Qed.

(** X1. Assigning [value] and reading it back: when the serializer of the
    record's definition accepts [v] and decodes its encoding to [v], the
    assignment succeeds, [raw_value] holds the encoding and the next read
    returns [v]. *)
Theorem set_then_get_round_trip
    (self self' : Model) (d : Preference) (v : pyval) (s : string) :
  preference self = (Ok d, self') ->
  serialize (serializer d) v = Ok s ->
  deserialize (serializer d) (Some s) = Ok v ->
  fst (set_value v self) = Ok tt /\
  raw_value (snd (set_value v self)) = Some s /\
  fst (get_value (snd (set_value v self))) = Ok v.
Proof.
  intros Hp Hs Hd. rewrite (set_value_accepted _ _ _ _ _ Hp Hs). cbn [fst snd].
  split; [done|]. split; [done|].
  by rewrite (get_after_set _ _ _ s Hp).
Qed.

Lemma set_then_get_round_trip_witness :
  let self := Sample.stored 3 1 (Some "ui") "compact" "True" in
  fst (set_value (PyBool false) self) = Ok tt /\
  raw_value (snd (set_value (PyBool false) self)) = Some "False" /\
  fst (get_value (snd (set_value (PyBool false) self))) = Ok (PyBool false).
Proof.
  intros self.
  apply (set_then_get_round_trip self
           (set_cached_preference self
              {| default := PyBool false;
                 serializer := Sample.boolean_serializer |})
           {| default := PyBool false;
              serializer := Sample.boolean_serializer |}
           (PyBool false) "False");
    vm_compute; reflexivity.
Defined.

(** X2. Assigning [value] writes no field but [raw_value]: whether the
    assignment succeeds or raises, the class, the primary key, the section,
    the name and the owner of the record are what they were. *)
Theorem set_value_writes_only_raw_value (self : Model) (v : pyval) :
  class_of (snd (set_value v self)) = class_of self /\
  pk (snd (set_value v self)) = pk self /\
  section (snd (set_value v self)) = section self /\
  name (snd (set_value v self)) = name self /\
  instance (snd (set_value v self)) = instance self.
Proof.
  destruct (preference self) as [[d|e] self'] eqn:Hp.
  - destruct (preference_keeps_fields _ _ _ Hp) as [Hf Hc].
    destruct (serialize (serializer d) v) as [s|e] eqn:Hs.
    + rewrite (set_value_accepted _ _ _ _ _ Hp Hs). cbn.
      by rewrite Hf, Hc.
    + rewrite (set_value_rejected _ _ _ _ _ Hp Hs). cbn.
      by rewrite Hf, Hc.
  - unfold set_value, bind. rewrite Hp. cbn.
    by rewrite (preference_raises _ _ _ Hp).
Qed.

(** X3. Reading [value] changes no field and no class, and a second read
    on the same object gives the outcome of the first, leaving the object
    as the first read left it. *)
Theorem get_value_reads_only (self : Model) :
  fields (snd (get_value self)) = fields self /\
  class_of (snd (get_value self)) = class_of self /\
  get_value (snd (get_value self)) = get_value self.
Proof.
  destruct (get_value self) as [r self'] eqn:Hg. cbn [snd].
  split; [by apply (get_value_keeps_fields _ _ _ Hg)|].
  split; [|by apply (get_value_again _ _ _ Hg)].
  destruct (preference self) as [[d|e] s1] eqn:Hp.
  - rewrite (get_value_found _ _ _ Hp) in Hg. injection Hg as _ <-.
    by destruct (preference_keeps_fields _ _ _ Hp).
  - rewrite (get_value_not_found _ _ _ Hp) in Hg. by injection Hg as _ <-.
Qed.

(** X4. On a record whose definition was not resolved yet and whose
    coordinates the registry does not know, reading and assigning [value]
    both raise the error of [registry.get] and leave the whole object,
    [raw_value] included, untouched. *)
Theorem value_without_definition_raises
    (self : Model) (reg : Registry) (v : pyval) (e : exn) :
  cached_preference self = None ->
  registry (class_of self) = Some reg ->
  get reg (section self) (name self) = Err e ->
  get_value self = (Err e, self) /\
  set_value v self = (Err e, self).
Proof.
  intros Hc Hr Hg.
  assert (preference self = (Err e, self)) as Hp.
  { unfold preference. by rewrite Hc, Hr, Hg. }
  split; [by apply (get_value_not_found _ _ _ Hp)|].
  unfold set_value, bind. by rewrite Hp.
Qed.

Lemma value_without_definition_raises_witness :
  let self := Sample.stored 4 1 (Some "ui") "retired" "True" in
  get_value self = (Err KeyError, self) /\
  set_value (PyBool true) self = (Err KeyError, self).
Proof.
  intros self.
  apply (value_without_definition_raises self Sample.sample_registry);
    reflexivity.
Defined.

(** X5. On a class that leaves [registry] at [None], as
    [BasePreferenceModel] does, nothing can be resolved: reading and
    assigning [value] raise [AttributeError], and so does the constructor
    of a fresh record. *)
Theorem unbound_registry_raises
    (super_init :
       PreferenceClass -> list pyval -> gmap string pyval -> result Fields)
    (cls : PreferenceClass) (args : list pyval)
    (kwargs : gmap string pyval) (f : Fields) (v : pyval) :
  registry cls = None ->
  super_init cls args (delete "value" kwargs) = Ok f ->
  get_value (constructed cls f) = (Err AttributeError, constructed cls f) /\
  set_value v (constructed cls f)
  = (Err AttributeError, constructed cls f) /\
  (pk f = None -> __init__ super_init cls args kwargs = Err AttributeError).
Proof.
  intros Hr Hf.
  assert (preference (constructed cls f)
          = (Err AttributeError, constructed cls f)) as Hp.
  { unfold preference. cbn. by rewrite Hr. }
  split; [by apply (get_value_not_found _ _ _ Hp)|].
  split; [unfold set_value, bind; by rewrite Hp|].
  intros Hpk. unfold __init__. rewrite Hf. cbn [fields].
  rewrite bool_decide_eq_true_2 by done. fold (constructed cls f).
  destruct (negb _).
  - unfold set_value, bind. by rewrite Hp.
  - unfold bind. by rewrite Hp.
Qed.

Lemma unbound_registry_raises_witness :
  let f := {| pk := None; section := Some "ui"; name := "theme";
              raw_value := None; instance := None |} in
  get_value (constructed BasePreferenceModel f)
  = (Err AttributeError, constructed BasePreferenceModel f) /\
  set_value (PyStr "dark") (constructed BasePreferenceModel f)
  = (Err AttributeError, constructed BasePreferenceModel f) /\
  (pk f = None ->
   __init__ Sample.keyword_init BasePreferenceModel []
     {[ "section" := PyStr "ui"; "name" := PyStr "theme" ]}
   = Err AttributeError).
Proof.
  intros f.
  apply (unbound_registry_raises Sample.keyword_init BasePreferenceModel []
           {[ "section" := PyStr "ui"; "name" := PyStr "theme" ]} f
           (PyStr "dark")); reflexivity.
Defined.

(** X6. The definition is looked up once per object: after a first read
    resolved it, every later read and assignment on that object uses the
    same definition, also when [section] and [name] were reassigned in
    between and the registry holds another definition for the new
    coordinates. *)
Theorem preference_resolved_once
    (self : Model) (reg : Registry) (d : Preference) (f : Fields)
    (v : pyval) :
  cached_preference self = None ->
  registry (class_of self) = Some reg ->
  get reg (section self) (name self) = Ok d ->
  fst (get_value (set_fields (snd (get_value self)) f))
  = deserialize (serializer d) (raw_value f) /\
  fst (set_value v (set_fields (snd (get_value self)) f))
  = match serialize (serializer d) v with
    | Ok _ => Ok tt
    | Err e => Err e
    end.
Proof.
  intros Hc Hr Hg.
  pose proof (preference_uncached _ _ _ Hc Hr Hg) as Hp.
  rewrite (get_value_found _ _ _ Hp). cbn [snd].
  assert (preference (set_fields (set_cached_preference self d) f)
          = (Ok d, set_fields (set_cached_preference self d) f)) as Hq
    by done.
  split.
  - by rewrite (get_value_found _ _ _ Hq).
  - unfold set_value, bind, lift. rewrite Hq.
    by destruct (serialize (serializer d) v).
Qed.

Lemma preference_resolved_once_witness :
  let self := Sample.stored 1 1 (Some "ui") "theme" "dark" in
  let f := {| pk := Some 1%Z; section := Some "ui"; name := "compact";
              raw_value := Some "True"; instance := Some 1%Z |} in
  fst (get_value (set_fields (snd (get_value self)) f))
  = Ok (PyStr "True") /\
  fst (set_value (PyBool true) (set_fields (snd (get_value self)) f))
  = Err SerializationError.
Proof.
  intros self f.
  apply (preference_resolved_once self Sample.sample_registry
           {| default := PyStr "light";
              serializer := Sample.string_serializer |} f (PyBool true));
    reflexivity.
Defined.

(** X7. Assigning twice: when the serializer accepts both values, the
    second assignment leaves the object it would have left without the
    first; [raw_value] is the encoding of the last value. *)
Theorem set_value_last_wins
    (self self' : Model) (d : Preference) (v1 v2 : pyval) (s1 s2 : string) :
  preference self = (Ok d, self') ->
  serialize (serializer d) v1 = Ok s1 ->
  serialize (serializer d) v2 = Ok s2 ->
  set_value v2 (snd (set_value v1 self)) = set_value v2 self /\
  raw_value (snd (set_value v2 (snd (set_value v1 self)))) = Some s2.
Proof.
  intros Hp H1 H2.
  rewrite (set_value_accepted _ _ _ _ _ Hp H1),
          (set_value_accepted _ _ _ _ _ Hp H2). cbn [snd].
  pose proof (preference_after_set _ _ (Some s1)
                (preference_memoized _ _ _ Hp)) as Hq.
  by rewrite (set_value_accepted _ _ _ _ _ Hq H2).
Qed.

Lemma set_value_last_wins_witness :
  let self := Sample.stored 3 1 (Some "ui") "compact" "True" in
  set_value (PyBool true) (snd (set_value (PyBool false) self))
  = set_value (PyBool true) self /\
  raw_value (snd (set_value (PyBool true)
                    (snd (set_value (PyBool false) self)))) = Some "True".
Proof.
  intros self.
  apply (set_value_last_wins self
           (set_cached_preference self
              {| default := PyBool false;
                 serializer := Sample.boolean_serializer |})
           {| default := PyBool false;
              serializer := Sample.boolean_serializer |}
           (PyBool false) (PyBool true) "False" "True");
    reflexivity.
Defined.


Lemma get_value_keeps_class (self : Model) (r : result pyval) (self' : Model) :
  get_value self = (r, self') -> class_of self' = class_of self.
Proof.
  destruct (preference self) as [[d|e] s1] eqn:Hp.
  - rewrite (get_value_found _ _ _ Hp). intros [= _ <-].
    by destruct (preference_keeps_fields _ _ _ Hp).
  - rewrite (get_value_not_found _ _ _ Hp). by intros [= _ <-].
Qed.

(** X9. [__repr__] and [__str__] read [value]: they raise exactly the
    errors of that read, and otherwise return the class name, the section
    ([None] when null), the name and the printed value, without changing a
    field. *)
Theorem repr_reads_value (self : Model) :
  (forall e, fst (__repr__ self) = Err e <-> fst (get_value self) = Err e) /\
  (forall v,
      fst (get_value self) = Ok v ->
      fst (__str__ self)
      = Ok (class_name (class_of self) +:+ " - " +:+
            format_section (section self) +:+ "/" +:+ name self +:+ ": " +:+
            format_value v)) /\
  __str__ self = __repr__ self /\
  fields (snd (__repr__ self)) = fields self.
Proof.
  unfold __str__, __repr__, bind.
  destruct (get_value self) as [[v|e] self'] eqn:Hg; cbn [fst snd].
  - pose proof (get_value_keeps_fields _ _ _ Hg) as Hf.
    pose proof (get_value_keeps_class _ _ _ Hg) as Hc.
    split; [intros e; split; intros [=]|].
    split; [intros w [= <-]; by rewrite Hf, Hc|]. done.
  - split; [intros e0; split; by intros [= <-]|]. split; [by intros v [=]|].
    split; [done|]. by apply (get_value_keeps_fields _ _ _ Hg).
Qed.

(** ** The constructor, beyond the policy *)

(** X10. A fresh record cannot be built for coordinates the registry does
    not know: whether a [value] is passed or not, the constructor raises
    the error of [registry.get] and returns no object. *)
Theorem init_unregistered_raises
    (super_init :
       PreferenceClass -> list pyval -> gmap string pyval -> result Fields)
    (cls : PreferenceClass) (reg : Registry) (args : list pyval)
    (kwargs : gmap string pyval) (f : Fields) (e : exn) :
  super_init cls args (delete "value" kwargs) = Ok f ->
  pk f = None ->
  registry cls = Some reg ->
  get reg (section f) (name f) = Err e ->
  __init__ super_init cls args kwargs = Err e.
Proof.
  intros Hf Hpk Hr Hg. unfold __init__. rewrite Hf. cbn [fields].
  rewrite bool_decide_eq_true_2 by done. fold (constructed cls f).
  assert (preference (constructed cls f) = (Err e, constructed cls f)) as Hp.
  { unfold preference. cbn. by rewrite Hr, Hg. }
  destruct (negb _).
  - unfold set_value, bind. by rewrite Hp.
  - unfold bind. by rewrite Hp.
Qed.

Lemma init_unregistered_raises_witness :
  __init__ Sample.keyword_init Sample.SamplePreferenceModel []
    {[ "section" := PyStr "ui"; "name" := PyStr "retired";
       "value" := PyBool true ]}
  = Err KeyError.
Proof.
  apply (init_unregistered_raises Sample.keyword_init
           Sample.SamplePreferenceModel Sample.sample_registry []
           {[ "section" := PyStr "ui"; "name" := PyStr "retired";
              "value" := PyBool true ]}
           {| pk := None; section := Some "ui"; name := "retired";
              raw_value := None; instance := None |});
    reflexivity.
Defined.

(** X11. A fresh record cannot be built with a value its serializer
    rejects: the value the constructor assigns is the [value] argument, or
    the definition's default when the argument is missing or [None], and
    when the serializer raises on it the constructor raises the same error
    and returns no object. *)
Theorem init_rejected_value_raises
    (super_init :
       PreferenceClass -> list pyval -> gmap string pyval -> result Fields)
    (cls : PreferenceClass) (reg : Registry) (args : list pyval)
    (kwargs : gmap string pyval) (f : Fields) (d : Preference) (e : exn) :
  super_init cls args (delete "value" kwargs) = Ok f ->
  pk f = None ->
  registry cls = Some reg ->
  get reg (section f) (name f) = Ok d ->
  serialize (serializer d)
    (match kwargs !! "value" with
     | Some PyNone | None => default d
     | Some v => v
     end) = Err e ->
  __init__ super_init cls args kwargs = Err e.
Proof.
  intros Hf Hpk Hr Hg Hs. unfold __init__. rewrite Hf. cbn [fields].
  rewrite bool_decide_eq_true_2 by done. fold (constructed cls f).
  pose proof (constructed_preference cls f reg d Hr Hg) as Hp.
  destruct (kwargs !! "value") as [[| | |]|]; cbn [is_None negb];
    first [ by rewrite (set_value_rejected _ _ _ _ _ Hp Hs)
          | unfold bind at 1; rewrite Hp;
            by rewrite (set_value_rejected _ _ _ _ _
                          (preference_memoized _ _ _ Hp) Hs) ].
Qed.

Lemma init_rejected_value_raises_witness :
  __init__ Sample.keyword_init Sample.SamplePreferenceModel []
    {[ "section" := PyStr "ui"; "name" := PyStr "compact";
       "value" := PyInt 1 ]}
  = Err SerializationError.
Proof.
  apply (init_rejected_value_raises Sample.keyword_init
           Sample.SamplePreferenceModel Sample.sample_registry []
           {[ "section" := PyStr "ui"; "name" := PyStr "compact";
              "value" := PyInt 1 ]}
           {| pk := None; section := Some "ui"; name := "compact";
              raw_value := None; instance := None |}
           {| default := PyBool false;
              serializer := Sample.boolean_serializer |});
    reflexivity.
Defined.

(** X12. Whatever the constructor returns carries the fields of the base
    constructor, [raw_value] apart: on a stored row nothing else differs
    and no definition is cached; on a fresh record the definition of its
    coordinates is cached and [raw_value] is an encoding that definition's
    serializer produced. *)
Theorem init_returns_base_fields
    (super_init :
       PreferenceClass -> list pyval -> gmap string pyval -> result Fields)
    (cls : PreferenceClass) (args : list pyval)
    (kwargs : gmap string pyval) (self : Model) :
  __init__ super_init cls args kwargs = Ok self ->
  exists f,
    super_init cls args (delete "value" kwargs) = Ok f /\
    class_of self = cls /\
    pk self = pk f /\ section self = section f /\ name self = name f /\
    instance self = instance f /\
    (pk f <> None -> self = constructed cls f) /\
    (pk f = None ->
     exists reg d v s,
       registry cls = Some reg /\
       get reg (section f) (name f) = Ok d /\
       serialize (serializer d) v = Ok s /\
       self = initialised cls f d s).
Proof.
  unfold __init__.
  destruct (super_init cls args (delete "value" kwargs)) as [f|e] eqn:Hf;
    [|by intros [=]].
  cbn [fields]. fold (constructed cls f). case_bool_decide as Hpk.
  - intros H.
    assert (exists reg d v s,
               registry cls = Some reg /\
               get reg (section f) (name f) = Ok d /\
               serialize (serializer d) v = Ok s /\
               self = initialised cls f d s) as Hfresh.
    { destruct (registry cls) as [reg|] eqn:Hr; cycle 1.
      { exfalso. revert H. unfold set_value, bind, preference. cbn.
        rewrite Hr. by destruct (negb _). }
      destruct (get reg (section f) (name f)) as [d|e] eqn:Hg; cycle 1.
      { exfalso. revert H. unfold set_value, bind, preference. cbn.
        rewrite Hr, Hg. by destruct (negb _). }
      pose proof (constructed_preference cls f reg d Hr Hg) as Hp.
      exists reg, d.
      destruct (negb _).
      - destruct (serialize (serializer d)
                    (match kwargs !! "value" with
                     | Some x => x | None => PyNone end)) as [s|e] eqn:Hs.
        + rewrite (set_value_accepted _ _ _ _ _ Hp Hs) in H.
          injection H as <-. by eexists _, s.
        + by rewrite (set_value_rejected _ _ _ _ _ Hp Hs) in H.
      - unfold bind at 1 in H. rewrite Hp in H.
        destruct (serialize (serializer d) (default d)) as [s|e] eqn:Hs.
        + rewrite (set_value_accepted _ _ _ _ _
                     (preference_memoized _ _ _ Hp) Hs) in H.
          injection H as <-. by eexists _, s.
        + by rewrite (set_value_rejected _ _ _ _ _
                        (preference_memoized _ _ _ Hp) Hs) in H. }
    exists f. split; [done|].
    destruct Hfresh as (reg & d & v & s & Hr & Hg & Hs & ->).
    do 5 (split; [reflexivity|]). split; [done|].
    intros _. by exists reg, d, v, s.
  - intros [= <-]. exists f. split; [done|].
    do 5 (split; [reflexivity|]). split; [done|]. by intros ?.
Qed.

Lemma init_returns_base_fields_witness :
  exists f,
    Sample.keyword_init Sample.SamplePreferenceModel []
      (delete "value"
         {[ "section" := PyStr "ui"; "name" := PyStr "theme";
            "instance_id" := PyInt 9 ]}) = Ok f /\
    instance f = Some 9%Z.
Proof.
  destruct (init_returns_base_fields Sample.keyword_init
              Sample.SamplePreferenceModel []
              {[ "section" := PyStr "ui"; "name" := PyStr "theme";
                 "instance_id" := PyInt 9 ]}
              (initialised Sample.SamplePreferenceModel
                 {| pk := None; section := Some "ui"; name := "theme";
                    raw_value := None; instance := Some 9%Z |}
                 {| default := PyStr "light";
                    serializer := Sample.string_serializer |} "light"))
    as (f & Hf & _ & _ & _ & _ & Hi & _).
  - reflexivity.
  - exists f. split; [exact Hf|]. rewrite <- Hi. reflexivity.
Defined.

(** ** The bulk read, beyond grouping *)

Section ScanFacts.

Implicit Types (d : Dict) (p q : Model) (rs : list Model) (v : pyval).

Lemma with_entry_commute d sec nm v sec' nm' v' :
  ~ (sec = sec' /\ nm = nm') ->
  with_entry (with_entry d sec nm v) sec' nm' v'
  = with_entry (with_entry d sec' nm' v') sec nm v.
Proof.
  intros Hne. unfold with_entry.
  destruct (decide (sec = sec')) as [<-|Hs].
  - assert (nm <> nm') as Hn by (intros ->; by apply Hne).
    rewrite !lookup_insert_eq, !insert_insert_eq.
    f_equal. by apply insert_insert_ne.
  - rewrite (lookup_insert_ne _ sec sec') by done.
    rewrite (lookup_insert_ne _ sec' sec) by done.
    by apply insert_insert_ne.
Qed.

Lemma scan_commute d p q :
  coordinates p <> coordinates q ->
  scan (scan d p) q = scan (scan d q) p.
Proof.
  intros Hne. unfold scan.
  destruct (fst (get_value p)) as [v|]; destruct (fst (get_value q)) as [w|];
    try done.
  apply with_entry_commute. intros [Hs Hn]. apply Hne.
  unfold coordinates. by rewrite Hs, Hn.
Qed.

Lemma foldl_scan_permutation rs rs' :
  rs ≡ₚ rs' ->
  NoDup (coordinates <$> rs) ->
  forall d, foldl scan d rs = foldl scan d rs'.
Proof.
  induction 1 as [|p l l' _ IH|p q l|l l' l'' H1 IH1 H2 IH2];
    intros Hnd d.
  - done.
  - cbn. apply IH. rewrite fmap_cons in Hnd. by apply NoDup_cons in Hnd as [_ ?].
  - cbn. f_equal. apply scan_commute.
    rewrite !fmap_cons in Hnd. apply NoDup_cons in Hnd as [Hq _].
    intros Heq. apply Hq. rewrite Heq. by left.
  - rewrite IH1 by done. apply IH2. by rewrite <- H1.
Qed.

(** The record scanned last at its coordinates is the one the dict shows. *)
Lemma foldl_scan_latest d l1 p l2 v :
  fst (get_value p) = Ok v ->
  Forall (fun q => coordinates q <> coordinates p) l2 ->
  entry (foldl scan d (l1 ++ p :: l2)) (section p) (name p) = Some v.
Proof.
  intros Hv Hl2. rewrite foldl_app. cbn [foldl].
  rewrite foldl_scan_elsewhere.
  - unfold scan at 1. rewrite Hv, entry_with_entry. by rewrite decide_True.
  - eapply Forall_impl; [exact Hl2|]. intros q Hq [Hs Hn]. apply Hq.
    unfold coordinates. by rewrite Hs, Hn.
Qed.

Lemma distinct_per_owner_one_owner rs (o : option Z) :
  Forall (fun p => instance p = o) rs ->
  distinct_per_owner rs -> distinct_coordinates rs.
Proof.
  unfold distinct_per_owner, distinct_coordinates.
  induction 1 as [|p rs Hp Hrs IH]; [intros _; constructor|].
  rewrite !fmap_cons, !NoDup_cons. intros [Hnotin Hnd]. split; [|by apply IH].
  intros (q & Hq & Hin)%list_elem_of_fmap. apply Hnotin.
  apply list_elem_of_fmap. exists q. split; [|done].
  rewrite Hq. f_equal. rewrite Hp.
  symmetry. by apply (proj1 (Forall_forall _ _) Hrs).
Qed.

(** A loop that returns scanned records it could all read. *)
Lemma to_dict_loop_returns d rs d' :
  to_dict_loop d rs = Ok d' ->
  Forall (fun p => decodable p = true) rs /\ d' = foldl scan d rs.
Proof.
  revert d. induction rs as [|p rs IH]; intros d; cbn.
  - intros [= <-]. by split.
  - destruct (fst (get_value p)) as [v|e] eqn:Hv.
    + assert (decodable p = true) as Hp by (unfold decodable; by rewrite Hv).
      rewrite (to_dict_body_scan _ _ Hp). intros [Hrs ->]%IH.
      split; [by constructor|done].
    + by rewrite (to_dict_body_raises _ _ _ Hv).
Qed.

(** A loop that raises, raises what reading one of the records raised. *)
Lemma to_dict_loop_error d rs e :
  to_dict_loop d rs = Err e ->
  exists p, p ∈ rs /\ fst (get_value p) = Err e.
Proof.
  revert d. induction rs as [|p rs IH]; intros d; cbn; [by intros [=]|].
  destruct (fst (get_value p)) as [v|e'] eqn:Hv.
  - assert (decodable p = true) as Hp by (unfold decodable; by rewrite Hv).
    rewrite (to_dict_body_scan _ _ Hp). intros (q & Hq & He)%IH.
    exists q. split; [by right|done].
  - rewrite (to_dict_body_raises _ _ _ Hv). intros [= ->].
    exists p. split; [by left|done].
Qed.

Lemma foldl_scan_no_empty_section d rs :
  (forall sec inner, d !! sec = Some inner -> inner <> ∅) ->
  forall sec inner, foldl scan d rs !! sec = Some inner -> inner <> ∅.
Proof.
  revert d. induction rs as [|p rs IH]; intros d Hd; [done|].
  cbn. apply IH. intros sec inner. unfold scan.
  destruct (fst (get_value p)) as [v|]; [|by apply Hd].
  unfold with_entry. destruct (decide (section p = sec)) as [<-|Hs].
  - rewrite lookup_insert_eq. intros [= <-]. apply insert_non_empty.
  - rewrite lookup_insert_ne by done. apply Hd.
Qed.

End ScanFacts.

(** X13. The scan order does not matter when no two scanned records share
    section and name: two calls that scan the same readable records in
    different orders return the same dict. *)
Theorem to_dict_order_independent
    (qs_filter qs_filter' :
       gmap string pyval -> list Model -> result (list Model))
    (self self' : PreferenceModelManager)
    (kwargs kwargs' : gmap string pyval) (rs rs' : list Model) :
  scanned qs_filter self kwargs = Ok rs ->
  scanned qs_filter' self' kwargs' = Ok rs' ->
  rs ≡ₚ rs' ->
  distinct_coordinates rs ->
  Forall (fun p => decodable p = true) rs ->
  to_dict qs_filter self kwargs = to_dict qs_filter' self' kwargs'.
Proof.
  intros Hs Hs' Hperm Hnd Hrs. unfold to_dict. rewrite Hs, Hs'.
  rewrite (to_dict_loop_scans _ _ Hrs).
  rewrite to_dict_loop_scans by (by rewrite <- Hperm).
  f_equal. by apply foldl_scan_permutation.
Qed.

Lemma to_dict_order_independent_witness :
  to_dict Sample.exact_filter
    {| get_queryset :=
         [ Sample.stored 1 1 (Some "ui") "theme" "dark";
           Sample.stored 2 1 (Some "ui") "compact" "True" ] |} ∅
  = to_dict Sample.exact_filter
      {| get_queryset :=
           [ Sample.stored 2 1 (Some "ui") "compact" "True";
             Sample.stored 1 1 (Some "ui") "theme" "dark" ] |} ∅.
Proof.
  apply (to_dict_order_independent Sample.exact_filter Sample.exact_filter
           {| get_queryset :=
                [ Sample.stored 1 1 (Some "ui") "theme" "dark";
                  Sample.stored 2 1 (Some "ui") "compact" "True" ] |}
           {| get_queryset :=
                [ Sample.stored 2 1 (Some "ui") "compact" "True";
                  Sample.stored 1 1 (Some "ui") "theme" "dark" ] |}
           ∅ ∅
           [ Sample.stored 1 1 (Some "ui") "theme" "dark";
             Sample.stored 2 1 (Some "ui") "compact" "True" ]
           [ Sample.stored 2 1 (Some "ui") "compact" "True";
             Sample.stored 1 1 (Some "ui") "theme" "dark" ]).
  - reflexivity.
  - reflexivity.
  - apply perm_swap.
  - unfold distinct_coordinates. apply (bool_decide_unpack _).
    vm_compute. exact I.
  - repeat constructor.
Defined.

(** X14. No record is lost when the scanned records do not collide: if no
    two of them share section and name, or if they all belong to one owner
    and no two share owner, section and name, the dict holds the value of
    every scanned record under that record's section and name. *)
Theorem to_dict_keeps_distinct_records
    (qs_filter : gmap string pyval -> list Model -> result (list Model))
    (self : PreferenceModelManager) (kwargs : gmap string pyval)
    (rs : list Model) :
  scanned qs_filter self kwargs = Ok rs ->
  Forall (fun p => decodable p = true) rs ->
  distinct_coordinates rs \/
  (distinct_per_owner rs /\
   exists o, Forall (fun p : Model => instance p = o) rs) ->
  exists d : Dict,
    to_dict qs_filter self kwargs = Ok d /\
    forall (p : Model) v,
      p ∈ rs -> fst (get_value p) = Ok v ->
      exists inner, d !! section p = Some inner /\
                    inner !! name p = Some v.
Proof.
  intros Hs Hrs Hdist.
  assert (distinct_coordinates rs) as Hnd.
  { destruct Hdist as [?|[Hd [o Ho]]]; [done|].
    by apply distinct_per_owner_one_owner with o. }
  exists (foldl scan ∅ rs). split.
  - unfold to_dict. rewrite Hs. by apply to_dict_loop_scans.
  - intros p v (l1 & l2 & ->)%list_elem_of_split Hv.
    assert (entry (foldl scan ∅ (l1 ++ p :: l2)) (section p) (name p)
            = Some v) as He.
    { apply foldl_scan_latest; [done|].
      unfold distinct_coordinates in Hnd.
      rewrite fmap_app, fmap_cons in Hnd.
      apply NoDup_app in Hnd as (_ & _ & Hnd).
      apply NoDup_cons in Hnd as [Hp _].
      apply Forall_forall. intros q Hq Heq. apply Hp.
      rewrite <- Heq. apply list_elem_of_fmap. by exists q. }
    unfold entry in He.
    destruct (foldl scan ∅ (l1 ++ p :: l2) !! section p) as [inner|];
      [|done].
    by exists inner.
Qed.

Lemma to_dict_keeps_distinct_records_witness :
  exists d : Dict,
    to_dict Sample.exact_filter
      {| get_queryset :=
           [ Sample.stored 1 1 (Some "ui") "theme" "dark";
             Sample.stored 2 2 (Some "ui") "theme" "light";
             Sample.stored 3 2 (Some "ui") "compact" "True" ] |}
      {[ "instance" := PyInt 2 ]} = Ok d /\
    exists inner, d !! Some "ui" = Some inner /\
                  inner !! "theme" = Some (PyStr "light").
Proof.
  destruct (to_dict_keeps_distinct_records Sample.exact_filter
              {| get_queryset :=
                   [ Sample.stored 1 1 (Some "ui") "theme" "dark";
                     Sample.stored 2 2 (Some "ui") "theme" "light";
                     Sample.stored 3 2 (Some "ui") "compact" "True" ] |}
              {[ "instance" := PyInt 2 ]}
              [ Sample.stored 2 2 (Some "ui") "theme" "light";
                Sample.stored 3 2 (Some "ui") "compact" "True" ])
    as (d & Hd & Hall).
  - reflexivity.
  - repeat constructor.
  - right. split.
    + unfold distinct_per_owner. apply (bool_decide_unpack _).
      vm_compute. exact I.
    + exists (Some 2%Z). repeat constructor.
  - exists d. split; [exact Hd|].
    apply (Hall (Sample.stored 2 2 (Some "ui") "theme" "light")
             (PyStr "light")); [left|reflexivity].
Defined.

(** X15. The dict never has an empty section: every section key of a
    returned dict maps to a dict with at least one name. *)
Theorem to_dict_no_empty_section
    (qs_filter : gmap string pyval -> list Model -> result (list Model))
    (self : PreferenceModelManager) (kwargs : gmap string pyval)
    (d : Dict) :
  to_dict qs_filter self kwargs = Ok d ->
  forall sec inner,
    d !! sec = Some inner -> exists nm v, inner !! nm = Some v.
Proof.
  unfold to_dict.
  destruct (scanned qs_filter self kwargs) as [rs|e]; [|by intros [=]].
  intros [_ ->]%to_dict_loop_returns sec inner Hin.
  assert (inner <> ∅) as Hne.
  { eapply (foldl_scan_no_empty_section ∅ rs); [|exact Hin].
    intros sec' inner'. by rewrite lookup_empty. }
  destruct (map_choose inner Hne) as (nm & v & Hv). by exists nm, v.
Qed.

Lemma to_dict_no_empty_section_witness :
  exists nm v,
    (<["compact" := PyBool true]> {[ "theme" := PyStr "dark" ]}
       : gmap string pyval) !! nm = Some v.
Proof.
  apply (to_dict_no_empty_section Sample.exact_filter
           {| get_queryset :=
                [ Sample.stored 1 1 (Some "ui") "theme" "dark";
                  Sample.stored 2 1 (Some "ui") "compact" "True";
                  Sample.stored 3 1 None "notify" "None" ] |} ∅
           (<[None := {[ "notify" := PyNone ]}]>
              {[ Some "ui" := <["compact" := PyBool true]>
                                {[ "theme" := PyStr "dark" ]} ]} : Dict))
    with (sec := Some "ui"); vm_compute; reflexivity.
Defined.

(** X16. Every error of the bulk read has a cause outside the grouping:
    it is the error of the filter, or the error that reading the value of
    one of the scanned records raises.  The [KeyError] by which the loop
    detects a new section never reaches the caller. *)
Theorem to_dict_errors_come_from_records
    (qs_filter : gmap string pyval -> list Model -> result (list Model))
    (self : PreferenceModelManager) (kwargs : gmap string pyval) (e : exn) :
  to_dict qs_filter self kwargs = Err e ->
  scanned qs_filter self kwargs = Err e \/
  exists rs (p : Model),
    scanned qs_filter self kwargs = Ok rs /\
    p ∈ rs /\ fst (get_value p) = Err e.
Proof.
  unfold to_dict.
  destruct (scanned qs_filter self kwargs) as [rs|e0];
    [|intros [= ->]; by left].
  intros (p & Hp & He)%to_dict_loop_error. right. by exists rs, p.
Qed.

Lemma to_dict_errors_come_from_records_witness :
  scanned Sample.exact_filter
    {| get_queryset :=
         [ Sample.stored 1 1 (Some "ui") "theme" "dark";
           Sample.stored 2 1 (Some "ui") "compact" "maybe" ] |} ∅
  = Err DeserializationError \/
  exists rs (p : Model),
    scanned Sample.exact_filter
      {| get_queryset :=
           [ Sample.stored 1 1 (Some "ui") "theme" "dark";
             Sample.stored 2 1 (Some "ui") "compact" "maybe" ] |} ∅
    = Ok rs /\
    p ∈ rs /\ fst (get_value p) = Err DeserializationError.
Proof.
  apply (to_dict_errors_come_from_records Sample.exact_filter
           {| get_queryset :=
                [ Sample.stored 1 1 (Some "ui") "theme" "dark";
                  Sample.stored 2 1 (Some "ui") "compact" "maybe" ] |} ∅
           DeserializationError).
  reflexivity.
Defined.

(** ** A failed assignment *)

(** X17. An assignment that raises does not change what the record reads
    as: whatever the cause (no definition, or a value the serializer
    rejects), reading [value] afterwards has the outcome it had before. *)
Theorem failed_set_value_keeps_value (self : Model) (v : pyval) (e : exn) :
  fst (set_value v self) = Err e ->
  fst (get_value (snd (set_value v self))) = fst (get_value self).
Proof.
  destruct (preference self) as [[d|e'] self'] eqn:Hp.
  - destruct (serialize (serializer d) v) as [s|e''] eqn:Hs.
    + by rewrite (set_value_accepted _ _ _ _ _ Hp Hs).
    + rewrite (set_value_rejected _ _ _ _ _ Hp Hs). cbn [fst snd].
      intros _.
      rewrite (get_value_found _ _ _ Hp).
      rewrite (get_value_found _ _ _ (preference_memoized _ _ _ Hp)).
      by destruct (preference_keeps_fields _ _ _ Hp) as [-> _].
  - unfold set_value, bind. rewrite Hp. cbn [fst snd]. intros _.
    by rewrite (preference_raises _ _ _ Hp).
Qed.

Lemma failed_set_value_keeps_value_witness :
  let self := Sample.stored 3 1 (Some "ui") "compact" "True" in
  fst (get_value (snd (set_value (PyStr "yes") self))) = fst (get_value self).
Proof.
  intros self.
  apply (failed_set_value_keeps_value self (PyStr "yes") SerializationError).
  reflexivity.
Defined.
